(** * luaamath: the Lua binding of the amath AsciiMath-to-MathML converter

    A shallow embedding of [src/tools/amath/luaamath.c].  The file has two
    functions, [lua_amath_to_mathml] (exposed as [amath.to_mathml]) and
    [luaopen_amath], one table, [amathlib], and one macro, [luaL_register]
    for Lua 5.2 and later.  Everything else they call belongs to the Lua C
    API ([lua.h], [lauxlib.h]), to libc ([free]) or to the amath library
    ([src/amath.h]).  Those are modelled here after their reference manuals,
    only as far as the two functions use them:

    - a Lua stack frame is a list of values, index 1 first, top last;
    - a Lua string is a byte string that may hold NUL bytes; a [const char *]
      into it is read by C code up to the first NUL ([c_str]);
    - blocks obtained from the C allocator live in a finite map from
      addresses to contents; freeing or reading an address that is not live
      is undefined behaviour ([Fault]);
    - [luaL_error] and [luaL_typeerror] do not return: they unwind the C
      function, which is the [Raise] result of the monad [C];
    - [luaL_error] puts in front of its message the position of the caller
      of the C function, which is part of the state of a call ([position]);
    - a ghost [trace] records each call of the converter, each block it
      returns and each [free].

    [lua_pushstring] asks Lua's allocator for the new string and raises the
    memory error when the allocator refuses; whether it grants is an
    argument of the run.  The other requests for Lua memory (the string of a
    number, an error message, a new table) are taken as granted, and
    metatables are not modelled. *)

From Stdlib Require Import ZArith Ascii String.
From stdpp Require Import base option list gmap strings pretty.

Local Open Scope Z_scope.

(** ** What the build takes from outside this file *)

(** [lua.h] and [luaconf.h] fix the number type, its printing and the version
    number; [src/amath.h] declares the converter.  [amath_output s] is the
    content of the block the converter returns for the C string [s], or
    [None] when it returns [NULL]. *)
Class Platform := {
  lua_Number : Type;
  lua_Number2str : lua_Number → string;
  LUA_VERSION_NUM : Z;
  amath_output : string → option string;
}.

(** ** C strings *)

Definition NUL : ascii := Ascii.zero.

(** The bytes a C function sees through a [char *]: those before the first
    NUL. *)
Fixpoint c_str (s : string) : string :=
  match s with
  | EmptyString => EmptyString
  | String c r => if Ascii.eqb c NUL then EmptyString else String c (c_str r)
  end.

Definition has_nul (s : string) : bool :=
  existsb (Ascii.eqb NUL) (list_ascii_of_string s).

(** Whether [needle] occurs in [hay] as a run of consecutive bytes. *)
Fixpoint str_contains (hay needle : string) : bool :=
  String.prefix needle hay ||
  match hay with
  | EmptyString => false
  | String _ r => str_contains r needle
  end.

(** ** Lua values and the state of the process *)

(** A C function is known to Lua by its address. *)
Inductive lua_CFunction :=
  | Fn_lua_amath_to_mathml
  | Fn_other (addr : positive).

Inductive lua_value `{Platform} :=
  | LNil
  | LBoolean (b : bool)
  | LLightUserdata (p : positive)
  | LNumber (n : lua_Number)
  | LString (s : string)
  | LTable (r : positive)
  | LCFunction (f : lua_CFunction)
  | LLuaFunction (r : positive)
  | LUserdata (r : positive)
  | LThread (r : positive).

(** A [luaL_Reg] array; the [{NULL, NULL}] sentinel is the end of the list. *)
Record luaL_Reg := { name : string; func : lua_CFunction }.

Inductive event :=
  | EvConvert (input : string)
  | EvMalloc (p : positive)
  | EvFree (p : positive).

(** [stack] is the frame of the running C function and [position] what
    [luaL_where (L, 1)] gives for it: ["chunk:line: "] when it was called
    from a line of Lua code, the empty string when its caller has no line
    information.  [tables] holds the tables by reference, with string keys;
    [globals] is the table of globals and [loaded] is [registry._LOADED];
    [heap] holds the live blocks of the C allocator. *)
Record world `{Platform} := {
  stack : list lua_value;
  position : string;
  tables : gmap positive (gmap string lua_value);
  globals : gmap string lua_value;
  loaded : gmap string lua_value;
  heap : gmap positive string;
  trace : list event;
}.

Definition set_stack `{Platform} (st : list lua_value) (w : world) : world :=
  {| stack := st; position := position w; tables := tables w; globals := globals w;
     loaded := loaded w; heap := heap w; trace := trace w |}.

Definition set_position `{Platform} (pos : string) (w : world) : world :=
  {| stack := stack w; position := pos; tables := tables w; globals := globals w;
     loaded := loaded w; heap := heap w; trace := trace w |}.

Definition set_tables `{Platform} (t : gmap positive (gmap string lua_value))
    (w : world) : world :=
  {| stack := stack w; position := position w; tables := t; globals := globals w;
     loaded := loaded w; heap := heap w; trace := trace w |}.

Definition set_globals `{Platform} (g : gmap string lua_value) (w : world) : world :=
  {| stack := stack w; position := position w; tables := tables w; globals := g;
     loaded := loaded w; heap := heap w; trace := trace w |}.

Definition set_loaded `{Platform} (l : gmap string lua_value) (w : world) : world :=
  {| stack := stack w; position := position w; tables := tables w; globals := globals w;
     loaded := l; heap := heap w; trace := trace w |}.

Definition set_heap `{Platform} (h : gmap positive string) (w : world) : world :=
  {| stack := stack w; position := position w; tables := tables w; globals := globals w;
     loaded := loaded w; heap := h; trace := trace w |}.

Definition log `{Platform} (e : event) (w : world) : world :=
  {| stack := stack w; position := position w; tables := tables w; globals := globals w;
     loaded := loaded w; heap := heap w; trace := trace w ++ [e] |}.

(** ** The monad of C code running against a Lua state *)

(** [TypeError arg tname] is the error [luaL_typeerror (L, arg, tname)]
    raises; its text, "bad argument #arg to 'f' (tname expected, got ...)"
    after the position, names the function and the actual type from debug
    information and metatables and is not modelled.  [ErrorMsg msg] is an
    error whose value is the string [msg]. *)
Inductive lua_error :=
  | TypeError (arg : Z) (tname : string)
  | ErrorMsg (msg : string).

Inductive result `{Platform} (A : Type) :=
  | Ok (a : A) (w : world)
  | Raise (e : lua_error) (w : world)
  | Fault.
Arguments Ok {_ _} _ _.
Arguments Raise {_ _} _ _.
Arguments Fault {_ _}.

Definition C `{Platform} (A : Type) : Type := world → result A.

Definition ret `{Platform} {A} (a : A) : C A := fun w => Ok a w.

Definition bind `{Platform} {A B} (m : C A) (k : A → C B) : C B :=
  fun w =>
    match m w with
    | Ok a w' => k a w'
    | Raise e w' => Raise e w'
    | Fault => Fault
    end.

Notation "x <- m ;; k" := (bind m (fun x => k))
  (at level 100, m at next level, right associativity).
Notation "m ;;; k" := (bind m (fun _ => k))
  (at level 100, right associativity).

(** The state a computation ends in, when it ends. *)
Definition final_world `{Platform} {A} (r : result A) : option world :=
  match r with
  | Ok _ w | Raise _ w => Some w
  | Fault => None
  end.

(** ** The part of the Lua C API the binding uses *)

(** Acceptable stack indices: positive ones count from the bottom of the
    frame, negative ones from its top.  A positive index above the top is
    acceptable and holds no value ([LUA_TNONE]). *)
Definition index2addr (len : nat) (idx : Z) : option nat :=
  if 0 <? idx then Some (Z.to_nat (idx - 1))
  else if (idx <? 0) && (- idx <=? Z.of_nat len) then Some (Z.to_nat (Z.of_nat len + idx))
  else None.

Definition index2value `{Platform} (st : list lua_value) (idx : Z) : option lua_value :=
  i ← index2addr (length st) idx; st !! i.

Definition lua_push `{Platform} (v : lua_value) : C unit :=
  fun w => Ok tt (set_stack (stack w ++ [v]) w).

(** [cvt2str]: strings are strings, numbers convert, nothing else does. *)
Definition tostring_view `{Platform} (v : option lua_value) : option string :=
  match v with
  | Some (LString s) => Some s
  | Some (LNumber n) => Some (lua_Number2str n)
  | _ => None
  end.

(** [lua_tolstring (L, idx, NULL)]: a pointer to the string at [idx], or
    [NULL].  A number at [idx] is first replaced, in the stack, by its
    string. *)
Definition lua_tolstring `{Platform} (idx : Z) : C (option string) :=
  fun w =>
    match index2addr (length (stack w)) idx with
    | Some i =>
      match stack w !! i with
      | Some (LString s) => Ok (Some s) w
      | Some (LNumber n) =>
        let s := lua_Number2str n in
        Ok (Some s) (set_stack (<[i := LString s]> (stack w)) w)
      | _ => Ok None w
      end
    | None => Ok None w
    end.

Definition LUA_TSTRING : string := "string".

Definition luaL_typeerror `{Platform} {A} (arg : Z) (tname : string) : C A :=
  fun w => Raise (TypeError arg tname) w.

Definition luaL_checklstring `{Platform} (arg : Z) : C (option string) :=
  s <- lua_tolstring arg ;;
  (match s with
   | None => luaL_typeerror arg LUA_TSTRING
   | Some _ => ret tt
   end) ;;;
  ret s.

Definition luaL_checkstring `{Platform} (n : Z) : C (option string) :=
  luaL_checklstring n.

(** [lua_pushvfstring] for the conversions this file uses, [%s] and [%%].
    A [%s] argument is a C string: it is copied up to its first NUL, and a
    [NULL] prints as "(null)".  [None] stands for what is left undefined:
    another conversion, or more conversions than arguments. *)
Fixpoint lua_pushvfstring (fmt : string) (argp : list (option string)) : option string :=
  match fmt with
  | EmptyString => Some EmptyString
  | String c r =>
    if Ascii.eqb c "%" then
      match r with
      | String d r' =>
        if Ascii.eqb d "s" then
          match argp with
          | a :: argp' =>
            String.append (match a with Some s => c_str s | None => "(null)" end)
              <$> lua_pushvfstring r' argp'
          | [] => None
          end
        else if Ascii.eqb d "%" then String "%" <$> lua_pushvfstring r' argp
        else None
      | EmptyString => None
      end
    else String c <$> lua_pushvfstring r argp
  end.

(** [luaL_where (L, 1)]: level 0 is the running C function and level 1 the
    function that called it. *)
Definition luaL_where `{Platform} : world → string := position.

(** [luaL_error (L, fmt, ...)]: the position, then the formatted message. *)
Definition luaL_error `{Platform} {A} (fmt : string) (argp : list (option string)) : C A :=
  fun w =>
    match lua_pushvfstring fmt argp with
    | Some msg => Raise (ErrorMsg (luaL_where w +:+ msg)) w
    | None => Fault
    end.

(** The value of a memory error ([LUA_ERRMEM]): this string, without a
    position. *)
Definition MEMERRMSG : string := "not enough memory".

(** [lua_pushstring (L, p)] for [p] a block of the C allocator: the copy
    stops at the first NUL and lives in memory of Lua's allocator; when the
    allocator does not grant it ([granted = false]) the function raises the
    memory error and does not return.  [lua_pushstring (L, NULL)] pushes
    nil. *)
Definition lua_pushstring `{Platform} (granted : bool) (p : option positive) : C unit :=
  fun w =>
    match p with
    | None => lua_push LNil w
    | Some a =>
      match heap w !! a with
      | Some buf =>
        if granted then lua_push (LString (c_str buf)) w
        else Raise (ErrorMsg MEMERRMSG) w
      | None => Fault
      end
    end.

(** libc [free]. *)
Definition free `{Platform} (p : option positive) : C unit :=
  fun w =>
    match p with
    | None => Ok tt w
    | Some a =>
      match heap w !! a with
      | Some _ => Ok tt (log (EvFree a) (set_heap (delete a (heap w)) w))
      | None => Fault
      end
    end.

(** ** The converter [amath_to_mathml] of [src/amath.h] *)

(** It reads its argument as a C string and returns [NULL] or a block it
    allocated, at an address that was not live. *)
Definition amath_to_mathml `{Platform} (asciimath : string) : C (option positive) :=
  fun w =>
    let w1 := log (EvConvert (c_str asciimath)) w in
    match amath_output (c_str asciimath) with
    | None => Ok None w1
    | Some buf =>
      let a := fresh (dom (heap w1)) in
      Ok (Some a) (log (EvMalloc a) (set_heap (<[a := buf]> (heap w1)) w1))
    end.

(** ** [lua_amath_to_mathml] *)

(** The function of the file, with the answer [granted] of Lua's allocator
    to its [lua_pushstring]. *)
Definition lua_amath_to_mathml_mem `{Platform} (granted : bool) : C Z :=
  asciimath <- luaL_checkstring 1 ;;
  match asciimath with
  | None => luaL_error "amath.to_mathml: expected string argument" []
  | Some input =>
    mathml <- amath_to_mathml input ;;
    match mathml with
    | None =>
      luaL_error "amath.to_mathml: conversion failed for input: %s" [asciimath]
    | Some _ =>
      lua_pushstring granted mathml ;;;
      free mathml ;;;
      ret 1
    end
  end.

(** The function in a run in which Lua has the memory for the result. *)
Definition lua_amath_to_mathml `{Platform} : C Z := lua_amath_to_mathml_mem true.

(** ** Registration *)

(** [lua_newtable]: a new empty table, at a reference not in use. *)
Definition lua_newtable `{Platform} : C unit :=
  fun w =>
    let r := fresh (dom (tables w)) in
    lua_push (LTable r) (set_tables (<[r := ∅]> (tables w)) w).

(** [lua_pushcclosure (L, f, 0)]. *)
Definition lua_pushcclosure `{Platform} (f : lua_CFunction) : C unit :=
  lua_push (LCFunction f).

(** [lua_setfield (L, idx, k)]: pops the value on top and stores it under
    [k] in the table at [idx] (the index is read before the pop).  Storing
    nil removes the key.  Metatables are not modelled; a receiver that is
    not a table is left undefined. *)
Definition lua_setfield `{Platform} (idx : Z) (k : string) : C unit :=
  fun w =>
    let st := stack w in
    match index2value st idx, last st with
    | Some (LTable r), Some v =>
      match tables w !! r with
      | Some t =>
        let t' := match v with LNil => delete k t | _ => <[k := v]> t end in
        Ok tt (set_stack (removelast st) (set_tables (<[r := t']> (tables w)) w))
      | None => Fault
      end
    | _, _ => Fault
    end.

(** [luaL_setfuncs (L, l, 0)]: every function of [l] goes into the table on
    top of the stack. *)
Fixpoint luaL_setfuncs `{Platform} (l : list luaL_Reg) : C unit :=
  match l with
  | [] => ret tt
  | r :: l' =>
    lua_pushcclosure (func r) ;;;
    lua_setfield (-2) (name r) ;;;
    luaL_setfuncs l'
  end.

(** Lua 5.1's [luaL_findtable (L, LUA_GLOBALSINDEX, fname, _)] for a name
    without a dot: the global table of that name is pushed, created when the
    global is nil; a global of another type is a conflict, reported by
    returning the name. *)
Definition luaL_findtable_globals `{Platform} (fname : string) : C (option string) :=
  fun w =>
    match globals w !! fname with
    | None | Some LNil =>
      let r := fresh (dom (tables w)) in
      Ok None (set_stack (stack w ++ [LTable r])
                (set_globals (<[fname := LTable r]> (globals w))
                  (set_tables (<[r := ∅]> (tables w)) w)))
    | Some (LTable r) => Ok None (set_stack (stack w ++ [LTable r]) w)
    | Some _ => Ok (Some fname) w
    end.

(** Lua 5.1's own [luaL_register (L, libname, l)], that is
    [luaI_openlib (L, libname, l, 0)]: the table is [_LOADED[libname]] when
    that is a table, else the global table [libname], which it also records
    in [_LOADED]; then the functions are stored as in [luaL_setfuncs]. *)
Definition lua51_luaL_register `{Platform} (libname : string) (l : list luaL_Reg) : C unit :=
  fun w =>
    match loaded w !! libname with
    | Some (LTable r) => (lua_push (LTable r) ;;; luaL_setfuncs l) w
    | _ =>
      (conflict <- luaL_findtable_globals libname ;;
       match conflict with
       | Some _ => luaL_error "name conflict for module '%s'" [Some libname]
       | None =>
         (fun w1 =>
            match last (stack w1) with
            | Some t => Ok tt (set_loaded (<[libname := t]> (loaded w1)) w1)
            | None => Fault
            end) ;;;
         luaL_setfuncs l
       end) w
    end.

(** The compatibility macro of the file:
    [#if LUA_VERSION_NUM > 501]
    [#define luaL_register(L,name,reg) lua_newtable(L);luaL_setfuncs(L,reg,0)]. *)
Definition luaL_register `{Platform} (libname : string) (reg : list luaL_Reg) : C unit :=
  if 501 <? LUA_VERSION_NUM
  then lua_newtable ;;; luaL_setfuncs reg
  else lua51_luaL_register libname reg.

Definition amathlib : list luaL_Reg :=
  [ {| name := "to_mathml"; func := Fn_lua_amath_to_mathml |} ].

Definition luaopen_amath `{Platform} : C Z :=
  luaL_register "amath" amathlib ;;;
  ret 1.

(** ** Calls from Lua *)


Inductive outcome `{Platform} :=
  | Returns (results : list lua_value)
  | Throws (e : lua_error)
  | Undefined.

(** Lua calls a C function on a frame that holds the arguments; [pos] is
    the position of the caller.  The function returns the number [n] of its
    results, which are the top [n] values of the frame.  The frame is then
    dropped. *)
Definition call_cfunction `{Platform} (f : C Z) (pos : string) (args : list lua_value)
    (w : world) : outcome * world :=
  match f (set_position pos (set_stack args w)) with
  | Ok n w' =>
    (Returns (drop (length (stack w') - Z.to_nat n) (stack w')),
     set_position (position w) (set_stack (stack w) w'))
  | Raise e w' => (Throws e, set_position (position w) (set_stack (stack w) w'))
  | Fault => (Undefined, w)
  end.

(** A run of calls of one function, each from its own position and on the
    state the previous one left. *)
Fixpoint session `{Platform} (f : C Z) (calls : list (string * list lua_value))
    (w : world) : list outcome :=
  match calls with
  | [] => []
  | c :: rest =>
    let r := call_cfunction f c.1 c.2 w in
    r.1 :: session f rest r.2
  end.

(** The converter calls recorded in a trace. *)
Definition converter_calls (t : list event) : list string :=
  omap (fun e => match e with EvConvert s => Some s | _ => None end) t.

(** The frame after [lua_tolstring (L, 1, NULL)]: a number in slot 1 has
    become its string. *)
Definition coerced_stack `{Platform} (st : list lua_value) : list lua_value :=
  match st with
  | LNumber n :: rest => LString (lua_Number2str n) :: rest
  | _ => st
  end.

Definition CONVERSION_FAILED : string :=
  "amath.to_mathml: conversion failed for input: ".

Definition EXPECTED_STRING : string :=
  "amath.to_mathml: expected string argument".

(** What Lua sees of a call of [amath.to_mathml] from position [pos]. *)
Definition to_mathml_outcome `{Platform} (pos : string) (args : list lua_value) : outcome :=
  match tostring_view (head args) with
  | None => Throws (TypeError 1 LUA_TSTRING)
  | Some s =>
    match amath_output (c_str s) with
    | None => Throws (ErrorMsg (pos +:+ CONVERSION_FAILED +:+ c_str s))
    | Some buf => Returns [LString (c_str buf)]
    end
  end.

(** ** A concrete platform *)

(** Integer numbers printed in decimal, Lua 5.4, and a converter that fails
    on the empty string and wraps anything else in a [math] element. *)
Definition demo_amath_output (s : string) : option string :=
  match s with
  | EmptyString => None
  | _ => Some ("<math>" +:+ s +:+ "</math>")
  end.

Definition demo : Platform :=
  {| lua_Number := Z; lua_Number2str := pretty;
     LUA_VERSION_NUM := 504; amath_output := demo_amath_output |}.

(** The same against Lua 5.1. *)
Definition demo51 : Platform :=
  {| lua_Number := Z; lua_Number2str := pretty;
     LUA_VERSION_NUM := 501; amath_output := demo_amath_output |}.

(** A converter that rejects every input. *)
Definition demo_reject : Platform :=
  {| lua_Number := Z; lua_Number2str := pretty;
     LUA_VERSION_NUM := 504; amath_output := fun _ => None |}.

Definition empty_world `{Platform} : world :=
  {| stack := []; position := ""; tables := ∅; globals := ∅; loaded := ∅;
     heap := ∅; trace := [] |}.

(** A call on the given arguments from a caller without line information,
    in a process that has done nothing yet. *)
Definition fresh_call `{Platform} (args : list lua_value) : world :=
  set_stack args empty_world.

(** A Lua string with a NUL byte in it: the three bytes [a], NUL, [b]. *)
Definition nul_input : string := String "a" (String NUL (String "b" EmptyString)).


(** A Lua 5.1 state in which a script has already made a global table
    [amath] with a field of its own. *)
Definition world_with_global_amath : @world demo51 :=
  {| stack := []; position := "";
     tables := {[ 1%positive := {[ "version" := @LString demo51 "1" ]} ]};
     globals := {[ "amath" := @LTable demo51 1 ]};
     loaded := ∅; heap := ∅; trace := [] |}.


(** ** Runs of calls and calls through the module table *)

(** The state a run of calls ends in. *)
Fixpoint session_end `{Platform} (f : C Z) (calls : list (string * list lua_value))
    (w : world) : world :=
  match calls with
  | [] => w
  | c :: rest => session_end f rest (call_cfunction f c.1 c.2 w).2
  end.

(** The addresses a trace allocates and the addresses it frees, in order. *)
Definition mallocs (t : list event) : list positive :=
  omap (fun e => match e with EvMalloc a => Some a | _ => None end) t.

Definition frees (t : list event) : list positive :=
  omap (fun e => match e with EvFree a => Some a | _ => None end) t.

(** The C string a call passes to the converter, when it gets that far. *)
Definition converter_input `{Platform} (args : list lua_value) : option string :=
  c_str <$> tostring_view (head args).

(** What one call of [amath.to_mathml] adds to the trace, with [h] the heap
    it runs on. *)
Definition to_mathml_events `{Platform} (h : gmap positive string)
    (args : list lua_value) : list event :=
  match tostring_view (head args) with
  | None => []
  | Some s =>
    match amath_output (c_str s) with
    | None => [EvConvert (c_str s)]
    | Some _ => [EvConvert (c_str s); EvMalloc (fresh (dom h)); EvFree (fresh (dom h))]
    end
  end.


(** Every table the registry or the globals name under [k] exists. *)
Definition module_slot_ok `{Platform} (k : string) (w : world) : Prop :=
  (∀ r, loaded w !! k = Some (LTable r) → is_Some (tables w !! r)) ∧
  (∀ r, globals w !! k = Some (LTable r) → is_Some (tables w !! r)).

(** What registration promises whichever way it goes: on a return, the
    table on top of the frame holds the conversion function, and the C heap
    and the trace are untouched; the only error is a name conflict, raised
    before anything was changed. *)
Definition registered `{Platform} (w : world) (r : result unit) : Prop :=
  match r with
  | Ok _ w' =>
    ∃ r t,
      stack w' = stack w ++ [LTable r] ∧
      tables w' !! r = Some t ∧
      t !! "to_mathml" = Some (LCFunction Fn_lua_amath_to_mathml) ∧
      heap w' = heap w ∧ trace w' = trace w
  | Raise e w' =>
    e = ErrorMsg (position w +:+ "name conflict for module 'amath'") ∧ w' = w
  | Fault => False
  end.

(** What Lua sees of a call of the function under the answer [granted] of
    its allocator. *)
Definition to_mathml_outcome_mem `{Platform} (granted : bool) (pos : string)
    (args : list lua_value) : outcome :=
  match tostring_view (head args) with
  | None => Throws (TypeError 1 LUA_TSTRING)
  | Some s =>
    match amath_output (c_str s) with
    | None => Throws (ErrorMsg (pos +:+ CONVERSION_FAILED +:+ c_str s))
    | Some buf => if granted then Returns [LString (c_str buf)] else Throws (ErrorMsg MEMERRMSG)
    end
  end.

(** Whether a call ends with the block of the converter still allocated:
    the converter returned one and Lua refused the memory for its copy. *)
Definition keeps_block `{Platform} (granted : bool) (args : list lua_value) : bool :=
  match tostring_view (head args) with
  | None => false
  | Some s =>
    match amath_output (c_str s) with
    | None => false
    | Some _ => negb granted
    end
  end.

(** The heap and the events of one call under the answer [granted], with
    [h] the heap it runs on. *)
Definition to_mathml_heap_mem `{Platform} (granted : bool) (h : gmap positive string)
    (args : list lua_value) : gmap positive string :=
  match tostring_view (head args) with
  | None => h
  | Some s =>
    match amath_output (c_str s) with
    | None => h
    | Some buf => if granted then h else <[fresh (dom h) := buf]> h
    end
  end.

Definition to_mathml_events_mem `{Platform} (granted : bool) (h : gmap positive string)
    (args : list lua_value) : list event :=
  match tostring_view (head args) with
  | None => []
  | Some s =>
    match amath_output (c_str s) with
    | None => [EvConvert (c_str s)]
    | Some _ =>
      if granted
      then [EvConvert (c_str s); EvMalloc (fresh (dom h)); EvFree (fresh (dom h))]
      else [EvConvert (c_str s); EvMalloc (fresh (dom h))]
    end
  end.

(** A run of calls of the function, each with the answer of Lua's allocator,
    its position and its arguments: the outcomes, the state it ends in, and
    the number of calls that keep their block. *)
Fixpoint session_mem `{Platform} (calls : list (bool * (string * list lua_value)))
    (w : world) : list outcome :=
  match calls with
  | [] => []
  | c :: rest =>
    let r := call_cfunction (lua_amath_to_mathml_mem c.1) c.2.1 c.2.2 w in
    r.1 :: session_mem rest r.2
  end.

Fixpoint session_end_mem `{Platform} (calls : list (bool * (string * list lua_value)))
    (w : world) : world :=
  match calls with
  | [] => w
  | c :: rest =>
    session_end_mem rest (call_cfunction (lua_amath_to_mathml_mem c.1) c.2.1 c.2.2 w).2
  end.

Definition kept_blocks `{Platform} (calls : list (bool * (string * list lua_value))) : nat :=
  length (List.filter (λ c, keeps_block c.1 c.2.2) calls).



(** A Lua 5.1 state in which a script has set the global [amath] to a
    number. *)
Definition world_with_global_number : @world demo51 :=
  {| stack := []; position := ""; tables := ∅;
     globals := {[ "amath" := @LNumber demo51 7 ]};
     loaded := ∅; heap := ∅; trace := [] |}.

(** Two calls on a state that holds a block: Lua refuses the first push and
    grants the second. *)
Definition refused_then_granted : list (bool * (string * list (@lua_value demo))) :=
  [ (false, ("", [LString "x^2"])); (true, ("", [LString "x^2"])) ].

(** A Lua string whose bytes after the NUL the converter never sees. *)
Definition x2_then_junk : string :=
  String "x" (String "^" (String "2" (String NUL (String "?" EmptyString)))).

(** ** Facts about C strings and formatting *)

Section strings.

Lemma c_str_no_nul (s : string) : has_nul s = false → c_str s = s.
Proof.
  unfold has_nul. induction s as [|c r IH]; [done|]. cbn [list_ascii_of_string existsb c_str].
  intros [Hc Hr]%orb_false_iff. rewrite Ascii.eqb_sym in Hc. rewrite Hc. f_equal. auto.
Qed.

Lemma has_nul_c_str (s : string) : has_nul (c_str s) = false.
Proof.
  unfold has_nul. induction s as [|c r IH]; [done|]. cbn [c_str].
  destruct (Ascii.eqb c NUL) eqn:Hc; [done|].
  cbn [list_ascii_of_string existsb]. rewrite Ascii.eqb_sym, Hc. exact IH.
Qed.

Lemma c_str_idemp (s : string) : c_str (c_str s) = c_str s.
Proof. apply c_str_no_nul, has_nul_c_str. Qed.

Lemma prefix_app (x y : string) : String.prefix x (x +:+ y) = true.
Proof.
  induction x as [|c r IH]; simpl; [by destruct y|].
  destruct (ascii_dec c c); [exact IH | done].
Qed.

Lemma prefix_refl (x : string) : String.prefix x x = true.
Proof.
  induction x as [|c r IH]; simpl; [done|].
  destruct (ascii_dec c c); [exact IH | done].
Qed.

Lemma str_contains_prefix (hay x : string) :
  String.prefix x hay = true → str_contains hay x = true.
Proof. intros Hp. destruct hay; cbn [str_contains]; rewrite Hp; done. Qed.

Lemma str_contains_app_r (pre x : string) : str_contains (pre +:+ x) x = true.
Proof.
  induction pre as [|c r IH].
  - apply str_contains_prefix, prefix_refl.
  - change (String c r +:+ x) with (String c (r +:+ x)).
    cbn [str_contains]. rewrite IH. apply orb_true_r.
Qed.

(** A string found in [hay] is made of bytes of [hay]. *)
Lemma prefix_has_nul (x hay : string) :
  String.prefix x hay = true → has_nul x = true → has_nul hay = true.
Proof.
  unfold has_nul. revert hay. induction x as [|c r IH]; intros hay; [done|].
  destruct hay as [|d hay]; cbn [String.prefix]; [done|].
  destruct (ascii_dec c d) as [->|]; [|done].
  cbn [list_ascii_of_string existsb]. intros Hp [->|Hr]%orb_true_iff; [done|].
  rewrite (IH hay Hp Hr). apply orb_true_r.
Qed.

Lemma str_contains_has_nul (hay x : string) :
  str_contains hay x = true → has_nul x = true → has_nul hay = true.
Proof.
  induction hay as [|d hay IH]; cbn [str_contains].
  - rewrite orb_false_r. apply prefix_has_nul.
  - intros [Hp|Hc]%orb_true_iff Hx; [by eapply prefix_has_nul|].
    unfold has_nul in *. cbn [list_ascii_of_string existsb].
    rewrite (IH Hc Hx). apply orb_true_r.
Qed.

Lemma append_empty_r (s : string) : s +:+ "" = s.
Proof.
  induction s as [|c r IH]; [done|].
  change (String c (r +:+ "") = String c r). by rewrite IH.
Qed.

Lemma pushvfstring_conversion_failed (a : string) :
  lua_pushvfstring "amath.to_mathml: conversion failed for input: %s" [Some a]
  = Some (CONVERSION_FAILED +:+ c_str a).
Proof. simpl. by rewrite append_empty_r. Qed.

End strings.

(** ** The binding, run symbolically *)

Section binding.
Context `{Platform}.

Lemma index2value_1 (st : list lua_value) : index2value st 1 = head st.
Proof. by destruct st. Qed.

Lemma fresh_block_free (h : gmap positive string) : h !! fresh (dom h) = None.
Proof. apply not_elem_of_dom, is_fresh. Qed.


Lemma coerced_stack_length (st : list lua_value) :
  length (coerced_stack st) = length st.
Proof. destruct st as [|[] ?]; done. Qed.


Lemma luaL_checkstring_run (w : world) :
  luaL_checkstring 1 w =
  match tostring_view (head (stack w)) with
  | Some s => Ok (Some s) (set_stack (coerced_stack (stack w)) w)
  | None => Raise (TypeError 1 LUA_TSTRING) w
  end.
Proof.
  unfold luaL_checkstring, luaL_checklstring, bind, lua_tolstring.
  destruct w as [st ps tb gl ld hp tr]; cbn [stack].
  destruct st as [|v rest]; [done|].
  destruct v; try done.
Qed.

(** The whole of [lua_amath_to_mathml] in closed form. *)
Lemma lua_amath_to_mathml_run (w : world) :
  lua_amath_to_mathml w =
  match tostring_view (head (stack w)) with
  | None => Raise (TypeError 1 LUA_TSTRING) w
  | Some s =>
    match amath_output (c_str s) with
    | None =>
      Raise (ErrorMsg (position w +:+ CONVERSION_FAILED +:+ c_str s))
        {| stack := coerced_stack (stack w); position := position w;
           tables := tables w; globals := globals w; loaded := loaded w;
           heap := heap w;
           trace := trace w ++ [EvConvert (c_str s)] |}
    | Some buf =>
      let a := fresh (dom (heap w)) in
      Ok 1
        {| stack := coerced_stack (stack w) ++ [LString (c_str buf)];
           position := position w;
           tables := tables w; globals := globals w; loaded := loaded w;
           heap := heap w;
           trace := trace w ++ [EvConvert (c_str s); EvMalloc a; EvFree a] |}
    end
  end.
Proof.
  unfold lua_amath_to_mathml, lua_amath_to_mathml_mem, bind at 1.
  rewrite luaL_checkstring_run.
  destruct (tostring_view (head (stack w))) as [s|]; [|done].
  unfold bind, amath_to_mathml.
  destruct (amath_output (c_str s)) as [buf|].
  - cbn -[fresh]. rewrite lookup_insert_eq. cbn -[fresh].
    rewrite lookup_insert_eq. cbn -[fresh].
    rewrite delete_insert_id by apply fresh_block_free.
    unfold ret, log, set_heap, set_stack; cbn -[fresh].
    by rewrite <- !app_assoc.
  - unfold luaL_error. rewrite pushvfstring_conversion_failed. done.
Qed.

Lemma set_stack_id (w : world) : set_stack (stack w) w = w.
Proof. by destruct w. Qed.

Lemma top_result (st : list lua_value) (v : lua_value) :
  drop (length (st ++ [v]) - Z.to_nat 1) (st ++ [v]) = [v].
Proof.
  rewrite length_app. cbn [length].
  replace (length st + 1 - Z.to_nat 1)%nat with (length st) by lia.
  apply drop_app_length.
Qed.

Lemma call_to_mathml (pos : string) (args : list lua_value) (w : world) :
  (call_cfunction lua_amath_to_mathml pos args w).1 = to_mathml_outcome pos args.
Proof.
  unfold call_cfunction, to_mathml_outcome. rewrite lua_amath_to_mathml_run.
  cbn [stack position set_stack set_position].
  destruct (tostring_view (head args)) as [s|]; [|done].
  destruct (amath_output (c_str s)) as [buf|]; [|done].
  cbn [fst stack]. by rewrite top_result.
Qed.

(** The same under any answer of Lua's allocator: a refused push raises
    the memory error with the block allocated and not freed. *)
Lemma lua_amath_to_mathml_mem_run (granted : bool) (w : world) :
  lua_amath_to_mathml_mem granted w =
  match tostring_view (head (stack w)) with
  | None => Raise (TypeError 1 LUA_TSTRING) w
  | Some s =>
    match amath_output (c_str s) with
    | None =>
      Raise (ErrorMsg (position w +:+ CONVERSION_FAILED +:+ c_str s))
        {| stack := coerced_stack (stack w); position := position w;
           tables := tables w; globals := globals w; loaded := loaded w;
           heap := heap w;
           trace := trace w ++ [EvConvert (c_str s)] |}
    | Some buf =>
      let a := fresh (dom (heap w)) in
      if granted then
        Ok 1
          {| stack := coerced_stack (stack w) ++ [LString (c_str buf)];
             position := position w;
             tables := tables w; globals := globals w; loaded := loaded w;
             heap := heap w;
             trace := trace w ++ [EvConvert (c_str s); EvMalloc a; EvFree a] |}
      else
        Raise (ErrorMsg MEMERRMSG)
          {| stack := coerced_stack (stack w); position := position w;
             tables := tables w; globals := globals w; loaded := loaded w;
             heap := <[a := buf]> (heap w);
             trace := trace w ++ [EvConvert (c_str s); EvMalloc a] |}
    end
  end.
Proof.
  destruct granted; [exact (lua_amath_to_mathml_run w)|].
  unfold lua_amath_to_mathml_mem, bind at 1. rewrite luaL_checkstring_run.
  destruct (tostring_view (head (stack w))) as [s|]; [|done].
  unfold bind, amath_to_mathml.
  destruct (amath_output (c_str s)) as [buf|].
  - cbn -[fresh]. rewrite lookup_insert_eq.
    unfold log, set_heap, set_stack; cbn -[fresh].
    by rewrite <- !app_assoc.
  - unfold luaL_error. rewrite pushvfstring_conversion_failed. done.
Qed.

Lemma call_to_mathml_mem (granted : bool) (pos : string) (args : list lua_value) (w : world) :
  (call_cfunction (lua_amath_to_mathml_mem granted) pos args w).1
  = to_mathml_outcome_mem granted pos args.
Proof.
  unfold call_cfunction, to_mathml_outcome_mem. rewrite lua_amath_to_mathml_mem_run.
  cbn [stack position set_stack set_position].
  destruct (tostring_view (head args)) as [s|]; [|done].
  destruct (amath_output (c_str s)) as [buf|]; [|done].
  destruct granted; [|done]. cbn [fst stack]. by rewrite top_result.
Qed.

Lemma call_to_mathml_mem_world (granted : bool) (pos : string) (args : list lua_value)
    (w : world) :
  (call_cfunction (lua_amath_to_mathml_mem granted) pos args w).2 =
  {| stack := stack w; position := position w; tables := tables w;
     globals := globals w; loaded := loaded w;
     heap := to_mathml_heap_mem granted (heap w) args;
     trace := trace w ++ to_mathml_events_mem granted (heap w) args |}.
Proof.
  unfold call_cfunction, to_mathml_heap_mem, to_mathml_events_mem.
  rewrite lua_amath_to_mathml_mem_run.
  cbn [stack position set_stack set_position heap trace tables globals loaded].
  destruct (tostring_view (head args)) as [s|].
  - destruct (amath_output (c_str s)); [by destruct granted|done].
  - cbn [snd]. unfold set_position, set_stack. cbn. by rewrite app_nil_r.
Qed.

Lemma session_outcomes (f : C Z) (g : string → list lua_value → outcome) :
  (∀ pos args w, (call_cfunction f pos args w).1 = g pos args) →
  ∀ calls w, session f calls w = (λ c, g c.1 c.2) <$> calls.
Proof.
  intros Hf calls. induction calls as [|c calls IH]; intros w; [done|].
  cbn [session fmap list_fmap]. by rewrite Hf, IH.
Qed.

(** Extra arguments do not count. *)
Lemma to_mathml_outcome_head (pos : string) (v : lua_value) (rest : list lua_value) :
  to_mathml_outcome pos (v :: rest) = to_mathml_outcome pos [v].
Proof. done. Qed.

End binding.

Section messages.

Lemma str_contains_after (pos pre x : string) :
  str_contains (pos +:+ pre +:+ x) x = true.
Proof.
  induction pos as [|c r IH]; [exact (str_contains_app_r pre x)|].
  change (String c r +:+ pre +:+ x) with (String c (r +:+ pre +:+ x)).
  cbn [str_contains]. rewrite IH. apply orb_true_r.
Qed.

Lemma append_inv_head (pos x y : string) : pos +:+ x = pos +:+ y → x = y.
Proof.
  induction pos as [|c r IH]; [done|].
  change (String c (r +:+ x) = String c (r +:+ y) → x = y). intros [= Hxy]. auto.
Qed.

Lemma conversion_failed_not_expected (pos a : string) :
  pos +:+ CONVERSION_FAILED +:+ a ≠ pos +:+ EXPECTED_STRING.
Proof. intros Heq%append_inv_head. discriminate Heq. Qed.

End messages.

(** ** The conversion function *)

(** Replaces a run of the binding, or a call of it, by its closed form. *)
Ltac run_to_mathml :=
  rewrite ?call_to_mathml; unfold to_mathml_outcome; rewrite ?lua_amath_to_mathml_run.

(** C1, as the code has it: when the argument is a string, the converter
    returns a block for it and Lua grants the memory for the copy,
    [amath.to_mathml] returns exactly one value, the Lua string holding the
    C string of that block; the block, allocated at an address [a] that was
    free, has been released when the function returns, and no error is
    raised. *)
Theorem to_mathml_returns_converter_output `{Platform}
    (granted : bool) (w : world) (s buf : string) (rest : list lua_value) :
  granted = true →
  stack w = LString s :: rest →
  amath_output (c_str s) = Some buf →
  ∃ a w',
    lua_amath_to_mathml_mem granted w = Ok 1 w' ∧
    stack w' = stack w ++ [LString (c_str buf)] ∧
    (call_cfunction (lua_amath_to_mathml_mem granted) (position w) (stack w) w).1
      = Returns [LString (c_str buf)] ∧
    heap w !! a = None ∧
    heap w' = heap w ∧
    trace w' = trace w ++ [EvConvert (c_str s); EvMalloc a; EvFree a].
Proof.
  intros -> Hst Hout. eexists (fresh (dom (heap w))), _.
  rewrite call_to_mathml_mem. unfold to_mathml_outcome_mem.
  rewrite lua_amath_to_mathml_mem_run, Hst. cbn [head tostring_view]. rewrite Hout.
  repeat split. apply fresh_block_free.
Qed.

Lemma to_mathml_returns_converter_output_witness :
  ∃ a w',
    @lua_amath_to_mathml_mem demo true (fresh_call [LString "x^2"]) = Ok 1 w' ∧
    stack w' = [LString "x^2"; LString "<math>x^2</math>"] ∧
    (@call_cfunction demo (lua_amath_to_mathml_mem true) "" [LString "x^2"]
       (fresh_call [LString "x^2"])).1
      = Returns [LString "<math>x^2</math>"] ∧
    (∅ : gmap positive string) !! a = None ∧
    heap w' = ∅ ∧
    trace w' = [EvConvert "x^2"; EvMalloc a; EvFree a].
Proof.
  exact (@to_mathml_returns_converter_output demo true (fresh_call [LString "x^2"])
           "x^2" "<math>x^2</math>" [] eq_refl eq_refl eq_refl).
Defined.

(** C1 as stated fails when Lua has no memory for the copy: on the string
    [x^2], for which the converter returns a block, [lua_pushstring] raises
    the memory error; the call returns no value. *)
Lemma refused_push_raises_memory_error :
  @amath_output demo (c_str "x^2") = Some "<math>x^2</math>" ∧
  ∃ w',
    @lua_amath_to_mathml_mem demo false (fresh_call [LString "x^2"])
      = Raise (ErrorMsg "not enough memory") w' ∧
    (@call_cfunction demo (lua_amath_to_mathml_mem false) "" [LString "x^2"]
       (fresh_call [LString "x^2"])).1
      = Throws (ErrorMsg "not enough memory").
Proof.
  split; [reflexivity|]. eexists. split; vm_compute; reflexivity.
Qed.

(** C2, as the code has it: when the argument is a string and the converter
    returns [NULL] for it, [amath.to_mathml] raises an error and returns
    nothing; the message is the position of the caller, the fixed text, and
    the argument read as a C string, that is, up to its first NUL byte.  An
    argument without a NUL byte is in the message verbatim. *)
Theorem to_mathml_conversion_error `{Platform}
    (w : world) (s : string) (rest : list lua_value) :
  stack w = LString s :: rest →
  amath_output (c_str s) = None →
  ∃ msg w',
    lua_amath_to_mathml w = Raise (ErrorMsg msg) w' ∧
    (call_cfunction lua_amath_to_mathml (position w) (stack w) w).1
      = Throws (ErrorMsg msg) ∧
    msg = position w +:+ CONVERSION_FAILED +:+ c_str s ∧
    str_contains msg (c_str s) = true ∧
    (has_nul s = false → str_contains msg s = true).
Proof.
  intros Hst Hout. eexists _, _.
  run_to_mathml. rewrite Hst. cbn [head tostring_view]. rewrite Hout.
  repeat split.
  - apply str_contains_after.
  - intros Hs. rewrite <- (c_str_no_nul s Hs) at 2. apply str_contains_after.
Qed.

Lemma to_mathml_conversion_error_witness :
  ∃ msg w',
    @lua_amath_to_mathml demo (fresh_call [LString ""]) = Raise (ErrorMsg msg) w' ∧
    (@call_cfunction demo lua_amath_to_mathml "" [LString ""] (fresh_call [LString ""])).1
      = Throws (ErrorMsg msg) ∧
    msg = "amath.to_mathml: conversion failed for input: " ∧
    str_contains msg "" = true ∧
    (has_nul "" = false → str_contains msg "" = true).
Proof.
  exact (@to_mathml_conversion_error demo (fresh_call [LString ""]) "" [] eq_refl eq_refl).
Defined.

(** C2 as stated fails on a string with a NUL byte: for the three bytes
    [a], NUL, [b] and a converter that returns [NULL], the message ends in
    [a] and does not contain the argument. *)
Lemma conversion_error_truncates_at_nul :
  @amath_output demo_reject (c_str nul_input) = None ∧
  ∃ w',
    @lua_amath_to_mathml demo_reject (fresh_call [LString nul_input])
      = Raise (ErrorMsg "amath.to_mathml: conversion failed for input: a") w' ∧
    str_contains "amath.to_mathml: conversion failed for input: a" nul_input = false.
Proof.
  split; [reflexivity|]. eexists. split; [vm_compute; reflexivity|].
  destruct (str_contains _ nul_input) eqn:Hc; [|done].
  by apply str_contains_has_nul in Hc.
Qed.

(** C3, as the code has it: when the first argument is missing or is neither
    a string nor a number, [amath.to_mathml] raises the type error of
    [luaL_checkstring] for argument 1; the state is as it was, so the
    converter was not called. *)
Theorem to_mathml_argument_error `{Platform} (w : world) :
  tostring_view (index2value (stack w) 1) = None →
  ∃ w',
    lua_amath_to_mathml w = Raise (TypeError 1 LUA_TSTRING) w' ∧
    (call_cfunction lua_amath_to_mathml (position w) (stack w) w).1
      = Throws (TypeError 1 LUA_TSTRING) ∧
    w' = w ∧
    converter_calls (trace w') = converter_calls (trace w).
Proof.
  rewrite index2value_1. intros Hv. exists w.
  run_to_mathml. by rewrite Hv.
Qed.

Lemma to_mathml_argument_error_witness :
  ∃ w',
    @lua_amath_to_mathml demo (fresh_call [LBoolean true]) = Raise (TypeError 1 "string") w' ∧
    (@call_cfunction demo lua_amath_to_mathml "" [LBoolean true]
       (fresh_call [LBoolean true])).1
      = Throws (TypeError 1 "string") ∧
    w' = fresh_call [LBoolean true] ∧
    converter_calls (trace w') = [].
Proof.
  exact (@to_mathml_argument_error demo (fresh_call [LBoolean true]) eq_refl).
Defined.

(** C3 as stated fails on a number: the call with the number 42 raises
    nothing, the converter is called on ["42"] and the call returns its
    output. *)
Lemma number_argument_reaches_converter :
  @index2value demo (stack (fresh_call [@LNumber demo 42])) 1 = Some (@LNumber demo 42) ∧
  ∃ w',
    @lua_amath_to_mathml demo (fresh_call [@LNumber demo 42]) = Ok 1 w' ∧
    converter_calls (trace w') = ["42"] ∧
    (@call_cfunction demo lua_amath_to_mathml "" [@LNumber demo 42]
       (fresh_call [@LNumber demo 42])).1
      = Returns [LString "<math>42</math>"].
Proof.
  split; [reflexivity|]. eexists. split; [vm_compute; reflexivity|].
  split; vm_compute; reflexivity.
Qed.

(** When Lua grants the memory for the copy: on every call on which the
    converter returns a block, the trace grows by the converter call, one
    allocation and one [free] of the same address [a], in that order; [a]
    was not live before and is not live when the call returns, the heap
    being what it was; tables, globals and the registry are untouched, and
    the only value pushed is a Lua string, a copy of the C string in the
    block. *)
Lemma to_mathml_allocation_balanced `{Platform} (w : world) (s buf : string) :
  tostring_view (index2value (stack w) 1) = Some s →
  amath_output (c_str s) = Some buf →
  ∃ a w',
    lua_amath_to_mathml w = Ok 1 w' ∧
    heap w !! a = None ∧
    trace w' = trace w ++ [EvConvert (c_str s); EvMalloc a; EvFree a] ∧
    heap w' = heap w ∧
    tables w' = tables w ∧ globals w' = globals w ∧ loaded w' = loaded w ∧
    stack w' = coerced_stack (stack w) ++ [LString (c_str buf)].
Proof.
  rewrite index2value_1. intros Hv Hout. eexists (fresh (dom (heap w))), _.
  rewrite lua_amath_to_mathml_run, Hv, Hout.
  repeat split. apply fresh_block_free.
Qed.

(** C4 fails on the code: on a call on which the converter returns a block
    and Lua refuses the memory for the copy, [lua_pushstring] raises the
    memory error and the [free] after it is not reached.  The call ends
    with the block still allocated at its address [a]: one allocation, no
    [free], and the caller is left with a heap that holds the block. *)
Theorem refused_push_leaks_block `{Platform} (pos : string) (w : world) (s buf : string) :
  tostring_view (index2value (stack w) 1) = Some s →
  amath_output (c_str s) = Some buf →
  ∃ a w',
    lua_amath_to_mathml_mem false w = Raise (ErrorMsg MEMERRMSG) w' ∧
    heap w !! a = None ∧
    heap w' = <[a := buf]> (heap w) ∧
    heap w' !! a = Some buf ∧
    trace w' = trace w ++ [EvConvert (c_str s); EvMalloc a] ∧
    frees (trace w') = frees (trace w) ∧
    heap (call_cfunction (lua_amath_to_mathml_mem false) pos (stack w) w).2 !! a = Some buf.
Proof.
  rewrite index2value_1. intros Hv Hout. eexists (fresh (dom (heap w))), _.
  rewrite call_to_mathml_mem_world. unfold to_mathml_heap_mem.
  rewrite lua_amath_to_mathml_mem_run, Hv, Hout. cbn -[fresh frees].
  split; [reflexivity|]. split; [apply fresh_block_free|]. split; [reflexivity|].
  split; [apply lookup_insert_eq|]. split; [reflexivity|].
  split; [|apply lookup_insert_eq].
  cbn [trace]. unfold frees. rewrite omap_app. cbn. by rewrite app_nil_r.
Qed.

Lemma refused_push_leaks_block_witness :
  ∃ a w',
    @lua_amath_to_mathml_mem demo false (fresh_call [LString "x^2"])
      = Raise (ErrorMsg "not enough memory") w' ∧
    (∅ : gmap positive string) !! a = None ∧
    heap w' = <[a := "<math>x^2</math>"]> ∅ ∧
    heap w' !! a = Some "<math>x^2</math>" ∧
    trace w' = [EvConvert "x^2"; EvMalloc a] ∧
    frees (trace w') = [] ∧
    heap (@call_cfunction demo (lua_amath_to_mathml_mem false) "doc.lua:1: "
            [LString "x^2"] (fresh_call [LString "x^2"])).2 !! a
      = Some "<math>x^2</math>".
Proof.
  exact (@refused_push_leaks_block demo "doc.lua:1: " (fresh_call [LString "x^2"])
           "x^2" "<math>x^2</math>" eq_refl eq_refl).
Defined.




(** C6: a call on a string argument ends, by a return or by an error, in a
    state whose frame still starts with the arguments as they were passed:
    slot 1 holds the same bytes. *)
Theorem to_mathml_input_unchanged `{Platform}
    (w : world) (s : string) (rest : list lua_value) :
  stack w = LString s :: rest →
  ∃ w',
    final_world (lua_amath_to_mathml w) = Some w' ∧
    take (length (stack w)) (stack w') = stack w ∧
    index2value (stack w') 1 = Some (LString s).
Proof.
  intros Hst. rewrite lua_amath_to_mathml_run, Hst. cbn [head tostring_view coerced_stack].
  destruct (amath_output (c_str s)) as [buf|]; eexists; (split; [reflexivity|]);
    cbn [stack]; split; try done.
  - by rewrite take_app_length.
  - by rewrite firstn_all.
Qed.

Lemma to_mathml_input_unchanged_witness :
  ∃ w',
    final_world (@lua_amath_to_mathml demo (fresh_call [LString "x^2"; LNil])) = Some w' ∧
    take 2 (stack w') = [LString "x^2"; LNil] ∧
    index2value (stack w') 1 = Some (LString "x^2").
Proof.
  exact (@to_mathml_input_unchanged demo (fresh_call [LString "x^2"; LNil])
           "x^2" [LNil] eq_refl).
Defined.


(** The error the branch under [if (!asciimath)] would raise. *)
Lemma expected_string_branch `{Platform} (w : world) :
  luaL_error (A:=Z) "amath.to_mathml: expected string argument" [] w
  = Raise (ErrorMsg (position w +:+ EXPECTED_STRING)) w.
Proof. done. Qed.

(** C9: [luaL_checkstring] never returns a null pointer, so the branch of
    [lua_amath_to_mathml] that tests for one is dead: no call raises the
    error of that branch, the position followed by "amath.to_mathml:
    expected string argument". *)
Theorem expected_string_branch_dead `{Platform} (w : world) :
  (∀ p w', luaL_checkstring 1 w = Ok p w' → p ≠ None) ∧
  (∀ e w', lua_amath_to_mathml w = Raise e w' →
     e ≠ ErrorMsg (position w +:+ EXPECTED_STRING)).
Proof.
  split.
  - intros p w'. rewrite luaL_checkstring_run.
    destruct (tostring_view (head (stack w))); [|done]. by intros [= <- _].
  - intros e w'. rewrite lua_amath_to_mathml_run.
    destruct (tostring_view (head (stack w))) as [s|]; [|by intros [= <- _]].
    destruct (amath_output (c_str s)); [done|]. intros [= <- _] [= Hmsg].
    by apply (conversion_failed_not_expected (position w) (c_str s)).
Qed.

Lemma expected_string_branch_dead_witness :
  Some "x^2" ≠ (None : option string) ∧
  ErrorMsg "doc.lua:1: amath.to_mathml: conversion failed for input: "
    ≠ ErrorMsg ("doc.lua:1: " +:+ EXPECTED_STRING).
Proof.
  split.
  - exact (proj1 (@expected_string_branch_dead demo (fresh_call [LString "x^2"]))
             (Some "x^2") (fresh_call [LString "x^2"]) eq_refl).
  - exact (proj2 (@expected_string_branch_dead demo
                    (set_position "doc.lua:1: " (fresh_call [LString ""])))
             _ (log (EvConvert "") (set_position "doc.lua:1: " (fresh_call [LString ""])))
             eq_refl).
Defined.

(** C10: a call whose first argument is a number runs exactly as the call
    with the string of that number in its place, same result and same final
    state; the call is not rejected: it ends with the converter called on
    that string. *)
Theorem to_mathml_number_coerced `{Platform}
    (w : world) (n : lua_Number) (rest : list lua_value) :
  stack w = LNumber n :: rest →
  lua_amath_to_mathml w
    = lua_amath_to_mathml (set_stack (LString (lua_Number2str n) :: rest) w) ∧
  ∃ w' t,
    final_world (lua_amath_to_mathml w) = Some w' ∧
    trace w' = trace w ++ EvConvert (c_str (lua_Number2str n)) :: t ∧
    index2value (stack w') 1 = Some (LString (lua_Number2str n)).
Proof.
  intros Hst. rewrite !lua_amath_to_mathml_run, Hst.
  cbn [set_stack stack position head tostring_view coerced_stack tables globals loaded heap trace].
  split; [done|].
  destruct (amath_output (c_str (lua_Number2str n))) as [buf|]; eexists _, _;
    (split; [reflexivity|]); split; done.
Qed.

Lemma to_mathml_number_coerced_witness :
  @lua_amath_to_mathml demo (fresh_call [@LNumber demo 42])
    = @lua_amath_to_mathml demo (set_stack [LString "42"] (fresh_call [@LNumber demo 42])) ∧
  ∃ w' t,
    final_world (@lua_amath_to_mathml demo (fresh_call [@LNumber demo 42])) = Some w' ∧
    trace w' = EvConvert "42" :: t ∧
    index2value (stack w') 1 = Some (LString "42").
Proof.
  exact (@to_mathml_number_coerced demo (fresh_call [@LNumber demo 42]) 42 [] eq_refl).
Defined.

(** ** Module initialization *)

Section registration.
Context `{Platform}.

Lemma index2value_below_top (st : list lua_value) (u v : lua_value) :
  index2value ((st ++ [u]) ++ [v]) (-2) = Some u.
Proof.
  unfold index2value, index2addr. rewrite !length_app. cbn [length].
  replace (0 <? -2) with false by done. replace (-2 <? 0) with true by done.
  replace (- -2 <=? Z.of_nat (length st + 1 + 1)) with true by (symmetry; apply Z.leb_le; lia).
  cbn [andb mbind option_bind].
  replace (Z.to_nat (Z.of_nat (length st + 1 + 1) + -2)) with (length st) by lia.
  rewrite <- app_assoc. change ([u] ++ [v]) with (u :: [v]).
  by apply list_lookup_middle.
Qed.

(** Storing the functions of [amathlib] in the table on top of the stack. *)
Lemma luaL_setfuncs_amathlib (w : world) (st : list lua_value) (r : positive)
    (t : gmap string lua_value) :
  stack w = st ++ [LTable r] →
  tables w !! r = Some t →
  luaL_setfuncs amathlib w
  = Ok tt (set_tables
             (<[r := <["to_mathml" := LCFunction Fn_lua_amath_to_mathml]> t]> (tables w)) w).
Proof.
  intros Hst Ht. destruct w as [s0 ps tb gl ld hp tr]. cbn [stack tables] in Hst, Ht. subst s0.
  unfold amathlib, luaL_setfuncs, bind, lua_pushcclosure, lua_push, lua_setfield.
  cbn [func name stack tables set_stack].
  rewrite index2value_below_top, last_snoc, Ht, removelast_last. done.
Qed.

End registration.

Section lua51.
Context `{Platform}.





End lua51.



(** Against Lua 5.1 and in a state without a global [amath], the library's
    [luaL_register] makes the table, binds it to the global [amath] and to
    [_LOADED.amath], and stores the function in it. *)
Example luaopen_amath_lua51_first_load :
  ∃ w',
    @luaopen_amath demo51 (fresh_call []) = Ok 1 w' ∧
    stack w' = [LTable 1] ∧
    tables w' !! 1%positive = Some {[ "to_mathml" := LCFunction Fn_lua_amath_to_mathml ]} ∧
    globals w' !! "amath" = Some (LTable 1) ∧
    loaded w' !! "amath" = Some (LTable 1).
Proof.
  eexists. split; [vm_compute; reflexivity|].
  repeat split; vm_compute; reflexivity.
Qed.

(** Against Lua 5.1 and in a state where the global [amath] is a number,
    the library's [luaL_register] raises its name conflict and
    [luaopen_amath] returns nothing. *)
Example luaopen_amath_lua51_name_conflict :
  @luaopen_amath demo51 world_with_global_number
  = Raise (ErrorMsg "name conflict for module 'amath'") world_with_global_number.
Proof. vm_compute. reflexivity. Qed.


(** ** Further properties of the conversion function *)

Section runs.
Context `{Platform}.

Lemma set_position_stack_id (w : world) :
  set_position (position w) (set_stack (stack w) w) = w.
Proof. by destruct w. Qed.

(** The state a call leaves to the caller: its own, with a longer trace. *)
Lemma call_to_mathml_world (pos : string) (args : list lua_value) (w : world) :
  (call_cfunction lua_amath_to_mathml pos args w).2 =
  {| stack := stack w; position := position w; tables := tables w;
     globals := globals w; loaded := loaded w; heap := heap w;
     trace := trace w ++ to_mathml_events (heap w) args |}.
Proof.
  unfold call_cfunction, to_mathml_events. rewrite lua_amath_to_mathml_run.
  cbn [stack position set_stack set_position heap trace tables globals loaded].
  destruct (tostring_view (head args)) as [s|].
  - by destruct (amath_output (c_str s)).
  - cbn [snd]. unfold set_position, set_stack. cbn. by rewrite app_nil_r.
Qed.

Lemma session_end_run (calls : list (string * list lua_value)) (w : world) :
  session_end lua_amath_to_mathml calls w =
  {| stack := stack w; position := position w; tables := tables w;
     globals := globals w; loaded := loaded w; heap := heap w;
     trace := trace w ++ concat ((λ c, to_mathml_events (heap w) c.2) <$> calls) |}.
Proof.
  revert w. induction calls as [|c calls IH]; intros w.
  - cbn. rewrite app_nil_r. by destruct w.
  - cbn [session_end]. rewrite IH, call_to_mathml_world.
    cbn [stack position tables globals loaded heap trace fmap list_fmap concat].
    by rewrite <- app_assoc.
Qed.

Lemma mallocs_app (t u : list event) : mallocs (t ++ u) = mallocs t ++ mallocs u.
Proof. apply omap_app. Qed.

Lemma frees_app (t u : list event) : frees (t ++ u) = frees t ++ frees u.
Proof. apply omap_app. Qed.

Lemma to_mathml_events_balanced (h : gmap positive string) (args : list lua_value) :
  mallocs (to_mathml_events h args) = frees (to_mathml_events h args).
Proof.
  unfold to_mathml_events. destruct (tostring_view (head args)) as [s|]; [|done].
  by destruct (amath_output (c_str s)).
Qed.

Lemma to_mathml_events_converter (h : gmap positive string) (args : list lua_value) :
  converter_calls (to_mathml_events h args) = option_list (converter_input args).
Proof.
  unfold to_mathml_events, converter_input.
  destruct (tostring_view (head args)) as [s|]; [|done].
  by destruct (amath_output (c_str s)).
Qed.

Lemma run_events_balanced (h : gmap positive string) (calls : list (string * list lua_value)) :
  mallocs (concat ((λ c, to_mathml_events h c.2) <$> calls))
  = frees (concat ((λ c, to_mathml_events h c.2) <$> calls)).
Proof.
  induction calls as [|c calls IH]; [done|].
  cbn [fmap list_fmap concat]. by rewrite mallocs_app, frees_app, IH, to_mathml_events_balanced.
Qed.

Lemma run_events_converter (h : gmap positive string) (calls : list (string * list lua_value)) :
  converter_calls (concat ((λ c, to_mathml_events h c.2) <$> calls))
  = omap (λ c, converter_input c.2) calls.
Proof.
  induction calls as [|c calls IH]; [done|].
  cbn [fmap list_fmap concat omap list_omap]. unfold converter_calls in *.
  rewrite omap_app, IH. fold (converter_calls (to_mathml_events h c.2)).
  rewrite to_mathml_events_converter. by destruct (converter_input c.2).
Qed.

Lemma to_mathml_outcome_defined (pos : string) (args : list lua_value) :
  to_mathml_outcome pos args ≠ Undefined.
Proof.
  unfold to_mathml_outcome. destruct (tostring_view (head args)) as [s|]; [|done].
  by destruct (amath_output (c_str s)).
Qed.

End runs.


(** X2: arguments after the first do not count and are not touched: the
    call has the outcome of the call on the first argument alone, and its
    frame still holds the other arguments in their slots when it ends. *)
Theorem to_mathml_ignores_extra_arguments `{Platform}
    (pos : string) (v : lua_value) (rest : list lua_value) (w : world) :
  (call_cfunction lua_amath_to_mathml pos (v :: rest) w).1
    = (call_cfunction lua_amath_to_mathml pos [v] w).1 ∧
  ∃ w',
    final_world (lua_amath_to_mathml (set_stack (v :: rest) w)) = Some w' ∧
    take (length rest) (drop 1 (stack w')) = rest.
Proof.
  rewrite !call_to_mathml. split; [apply to_mathml_outcome_head|].
  rewrite lua_amath_to_mathml_run. cbn [set_stack stack head].
  assert (Hco : ∃ v', coerced_stack (v :: rest) = v' :: rest)
    by (destruct v; by eexists).
  destruct Hco as [v' Hco].
  destruct (tostring_view (Some v)) as [s|] eqn:Hv.
  - destruct (amath_output (c_str s)) as [buf|]; eexists; (split; [reflexivity|]);
      cbn [stack]; rewrite Hco; cbn [drop app]; rewrite drop_0.
    + by rewrite take_app_length.
    + by rewrite firstn_all.
  - eexists; split; [reflexivity|]. cbn [stack drop]. by rewrite ?drop_0, firstn_all.
Qed.

(** X3: the binding reads its argument as a C string.  Two strings with the
    same bytes before their first NUL are converted alike: same outcome, and
    the same calls of the converter, allocations and frees. *)
Theorem to_mathml_reads_c_string `{Platform}
    (pos : string) (s1 s2 : string) (rest1 rest2 : list lua_value) (w : world) :
  c_str s1 = c_str s2 →
  (call_cfunction lua_amath_to_mathml pos (LString s1 :: rest1) w).1
    = (call_cfunction lua_amath_to_mathml pos (LString s2 :: rest2) w).1 ∧
  (call_cfunction lua_amath_to_mathml pos (LString s1 :: rest1) w).2
    = (call_cfunction lua_amath_to_mathml pos (LString s2 :: rest2) w).2.
Proof.
  intros Heq. rewrite !call_to_mathml, !call_to_mathml_world.
  unfold to_mathml_outcome, to_mathml_events. cbn [head tostring_view].
  by rewrite Heq.
Qed.

Lemma to_mathml_reads_c_string_witness :
  (@call_cfunction demo lua_amath_to_mathml "" [LString "x^2"] (fresh_call [])).1
    = (@call_cfunction demo lua_amath_to_mathml "" [LString x2_then_junk] (fresh_call [])).1 ∧
  (@call_cfunction demo lua_amath_to_mathml "" [LString "x^2"] (fresh_call [])).2
    = (@call_cfunction demo lua_amath_to_mathml "" [LString x2_then_junk] (fresh_call [])).2.
Proof.
  exact (@to_mathml_reads_c_string demo "" "x^2" x2_then_junk [] [] (fresh_call []) eq_refl).
Defined.

(** X4: a call that returns gives exactly one value, a string without a
    NUL byte in it. *)
Theorem to_mathml_result_has_no_nul `{Platform}
    (pos : string) (args vs : list lua_value) (w : world) :
  (call_cfunction lua_amath_to_mathml pos args w).1 = Returns vs →
  ∃ s, vs = [LString s] ∧ has_nul s = false.
Proof.
  rewrite call_to_mathml. unfold to_mathml_outcome.
  destruct (tostring_view (head args)) as [s|]; [|done].
  destruct (amath_output (c_str s)) as [buf|]; [|done].
  intros [= <-]. exists (c_str buf). split; [done|apply has_nul_c_str].
Qed.

Lemma to_mathml_result_has_no_nul_witness :
  ∃ s, [@LString demo "<math>x^2</math>"] = [LString s] ∧ has_nul s = false.
Proof.
  exact (@to_mathml_result_has_no_nul demo "" [LString x2_then_junk]
           [LString "<math>x^2</math>"] (fresh_call []) eq_refl).
Defined.

(** A run in which Lua grants every push leaves the C heap, the tables, the
    globals and the registry as they were; the addresses it allocated are
    the addresses it freed, each once and in the same order; and no call of
    the run is undefined. *)
Lemma session_leaves_no_block `{Platform}
    (calls : list (string * list lua_value)) (w : world) :
  ∃ added,
    trace (session_end lua_amath_to_mathml calls w) = trace w ++ added ∧
    mallocs added = frees added ∧
    heap (session_end lua_amath_to_mathml calls w) = heap w ∧
    tables (session_end lua_amath_to_mathml calls w) = tables w ∧
    globals (session_end lua_amath_to_mathml calls w) = globals w ∧
    loaded (session_end lua_amath_to_mathml calls w) = loaded w ∧
    Forall (λ o, o ≠ Undefined) (session lua_amath_to_mathml calls w).
Proof.
  rewrite session_end_run. eexists. split; [reflexivity|].
  split; [apply run_events_balanced|]. repeat split.
  rewrite (session_outcomes _ to_mathml_outcome call_to_mathml).
  apply Forall_fmap, Forall_forall. intros c _. apply to_mathml_outcome_defined.
Qed.

Section blocks.
Context `{Platform}.

Lemma kept_blocks_cons (c : bool * (string * list lua_value))
    (calls : list (bool * (string * list lua_value))) :
  kept_blocks (c :: calls)
  = ((if keeps_block c.1 c.2.2 then 1 else 0) + kept_blocks calls)%nat.
Proof. unfold kept_blocks. cbn [List.filter]. by destruct (keeps_block c.1 c.2.2). Qed.

Lemma heap_mem_size (granted : bool) (h : gmap positive string) (args : list lua_value) :
  size (to_mathml_heap_mem granted h args)
  = (size h + (if keeps_block granted args then 1 else 0))%nat.
Proof.
  unfold to_mathml_heap_mem, keeps_block.
  destruct (tostring_view (head args)) as [s|]; [|lia].
  destruct (amath_output (c_str s)) as [buf|]; [|lia].
  destruct granted; cbn [negb]; [lia|].
  rewrite map_size_insert_None by apply fresh_block_free. lia.
Qed.

Lemma heap_mem_subseteq (granted : bool) (h : gmap positive string) (args : list lua_value) :
  h ⊆ to_mathml_heap_mem granted h args.
Proof.
  unfold to_mathml_heap_mem.
  destruct (tostring_view (head args)) as [s|]; [|done].
  destruct (amath_output (c_str s)) as [buf|]; [|done].
  destruct granted; [done|]. apply insert_subseteq, fresh_block_free.
Qed.

Lemma heap_mem_same (granted : bool) (h : gmap positive string) (args : list lua_value) :
  keeps_block granted args = false → to_mathml_heap_mem granted h args = h.
Proof.
  unfold to_mathml_heap_mem, keeps_block.
  destruct (tostring_view (head args)) as [s|]; [|done].
  destruct (amath_output (c_str s)) as [buf|]; [|done].
  by destruct granted.
Qed.

Lemma events_mem_count (granted : bool) (h : gmap positive string) (args : list lua_value) :
  length (mallocs (to_mathml_events_mem granted h args))
  = (length (frees (to_mathml_events_mem granted h args))
     + (if keeps_block granted args then 1 else 0))%nat.
Proof.
  unfold to_mathml_events_mem, keeps_block.
  destruct (tostring_view (head args)) as [s|]; [|done].
  destruct (amath_output (c_str s)) as [buf|]; [|done].
  by destruct granted.
Qed.

Lemma to_mathml_outcome_mem_defined (granted : bool) (pos : string) (args : list lua_value) :
  to_mathml_outcome_mem granted pos args ≠ Undefined.
Proof.
  unfold to_mathml_outcome_mem. destruct (tostring_view (head args)) as [s|]; [|done].
  destruct (amath_output (c_str s)); [by destruct granted|done].
Qed.

Lemma session_mem_defined (calls : list (bool * (string * list lua_value))) (w : world) :
  Forall (λ o, o ≠ Undefined) (session_mem calls w).
Proof.
  revert w. induction calls as [|c calls IH]; intros w; [constructor|].
  cbn [session_mem]. constructor; [|apply IH].
  rewrite call_to_mathml_mem. apply to_mathml_outcome_mem_defined.
Qed.

End blocks.

(** X5: over a run of calls of the function, each with its own answer of
    Lua's allocator, the tables, the globals and the registry stay as they
    were and no call is undefined; the blocks that were live stay live, and
    the heap grows by exactly one block for each call on which the converter
    returned a block and Lua refused the memory for its copy: that many
    allocations have no [free].  A run without such a call leaves the heap
    as it was. *)
Theorem session_live_blocks `{Platform}
    (calls : list (bool * (string * list lua_value))) (w : world) :
  ∃ added,
    trace (session_end_mem calls w) = trace w ++ added ∧
    length (mallocs added) = (length (frees added) + kept_blocks calls)%nat ∧
    size (heap (session_end_mem calls w)) = (size (heap w) + kept_blocks calls)%nat ∧
    heap w ⊆ heap (session_end_mem calls w) ∧
    (kept_blocks calls = 0%nat → heap (session_end_mem calls w) = heap w) ∧
    tables (session_end_mem calls w) = tables w ∧
    globals (session_end_mem calls w) = globals w ∧
    loaded (session_end_mem calls w) = loaded w ∧
    Forall (λ o, o ≠ Undefined) (session_mem calls w).
Proof.
  revert w. induction calls as [|c calls IH]; intros w.
  - exists []. cbn. rewrite app_nil_r. repeat split; try done; unfold kept_blocks; cbn; lia.
  - cbn [session_end_mem]. rewrite call_to_mathml_mem_world.
    match goal with |- context [session_end_mem calls ?x] => set (w1 := x) end.
    destruct (IH w1) as (added & Htr & Hcount & Hsize & Hsub & Hsame & Htb & Hgl & Hld & _).
    subst w1. cbn [trace heap tables globals loaded] in Htr, Hsize, Hsub, Hsame, Htb, Hgl, Hld.
    exists (to_mathml_events_mem c.1 (heap w) c.2.2 ++ added).
    rewrite kept_blocks_cons.
    split; [by rewrite Htr, app_assoc|].
    split; [rewrite mallocs_app, frees_app, !length_app, events_mem_count, Hcount; lia|].
    split; [rewrite Hsize, heap_mem_size; lia|].
    split; [etrans; [apply heap_mem_subseteq|exact Hsub]|].
    split.
    { intros Hz. destruct (keeps_block c.1 c.2.2) eqn:Hk; [lia|].
      rewrite Hsame by lia. by apply heap_mem_same. }
    split; [done|]. split; [done|]. split; [done|].
    apply session_mem_defined.
Qed.

(** X6: over a run of calls, the converter is called once for each call
    whose first argument is a string or a number, on the C string of that
    argument and in the order of the calls, and not at all for the other
    calls. *)
Theorem session_converter_calls `{Platform}
    (calls : list (string * list lua_value)) (w : world) :
  converter_calls (trace (session_end lua_amath_to_mathml calls w))
  = converter_calls (trace w) ++ omap (λ c, converter_input c.2) calls.
Proof.
  rewrite session_end_run. cbn [trace]. unfold converter_calls at 1.
  rewrite omap_app. fold (converter_calls (trace w)).
  f_equal. apply run_events_converter.
Qed.



(** ** Further properties of module initialization *)

Section loading.
Context `{Platform}.

(** [luaopen_amath] under the macro of the file, in closed form. *)
Lemma luaopen_amath_run (w : world) :
  501 < LUA_VERSION_NUM →
  luaopen_amath w =
  Ok 1 (set_tables
          (<[fresh (dom (tables w)) :=
               {[ "to_mathml" := LCFunction Fn_lua_amath_to_mathml ]}]> (tables w))
          (set_stack (stack w ++ [LTable (fresh (dom (tables w)))]) w)).
Proof.
  intros Hver. unfold luaopen_amath, luaL_register.
  replace (501 <? LUA_VERSION_NUM) with true by (symmetry; apply Z.ltb_lt; lia).
  unfold bind at 1 2. unfold lua_newtable, lua_push.
  erewrite luaL_setfuncs_amathlib; [| reflexivity | apply lookup_insert_eq].
  cbn -[fresh]. by rewrite insert_insert_eq, insert_empty.
Qed.


End loading.



(** X9: built against Lua 5.2 or later, [luaopen_amath] keeps nothing from
    one load to the next: run twice, it makes two different tables, each
    with the conversion function as its only entry, and the second run
    leaves the table of the first as it was. *)
Theorem luaopen_amath_twice `{Platform} (w : world) :
  501 < LUA_VERSION_NUM →
  ∃ r1 r2 w1 w2,
    luaopen_amath w = Ok 1 w1 ∧
    luaopen_amath w1 = Ok 1 w2 ∧
    r1 ≠ r2 ∧
    stack w2 = stack w ++ [LTable r1; LTable r2] ∧
    tables w1 !! r1 = Some {[ "to_mathml" := LCFunction Fn_lua_amath_to_mathml ]} ∧
    tables w2 !! r1 = tables w1 !! r1 ∧
    tables w2 !! r2 = Some {[ "to_mathml" := LCFunction Fn_lua_amath_to_mathml ]}.
Proof.
  intros Hver.
  set (r1 := fresh (dom (tables w))).
  set (t1 := <[r1 := {[ "to_mathml" := LCFunction Fn_lua_amath_to_mathml ]}]> (tables w)).
  set (r2 := fresh (dom t1)).
  assert (Hne : r1 ≠ r2).
  { intros Heq. apply (is_fresh (dom t1)). fold r2. rewrite <- Heq.
    apply elem_of_dom. exists {[ "to_mathml" := LCFunction Fn_lua_amath_to_mathml ]}.
    apply lookup_insert_eq. }
  exists r1, r2. eexists _, _.
  split; [by apply luaopen_amath_run|].
  split; [by apply luaopen_amath_run|].
  split; [exact Hne|].
  cbn -[fresh]. fold r1 t1 r2.
  split; [by rewrite <- app_assoc|].
  split; [apply lookup_insert_eq|].
  split; [by apply lookup_insert_ne|apply lookup_insert_eq].
Qed.

Lemma luaopen_amath_twice_witness :
  ∃ r1 r2 w1 w2,
    @luaopen_amath demo (fresh_call []) = Ok 1 w1 ∧
    luaopen_amath w1 = Ok 1 w2 ∧
    r1 ≠ r2 ∧
    stack w2 = [LTable r1; LTable r2] ∧
    tables w1 !! r1 = Some {[ "to_mathml" := LCFunction Fn_lua_amath_to_mathml ]} ∧
    tables w2 !! r1 = tables w1 !! r1 ∧
    tables w2 !! r2 = Some {[ "to_mathml" := LCFunction Fn_lua_amath_to_mathml ]}.
Proof.
  exact (@luaopen_amath_twice demo (fresh_call []) eq_refl).
Defined.

Section any_version.
Context `{Platform}.

Lemma setfuncs_registered (w w1 : world) (r : positive) (t : gmap string lua_value) :
  stack w1 = stack w ++ [LTable r] →
  tables w1 !! r = Some t →
  heap w1 = heap w → trace w1 = trace w →
  registered w (luaL_setfuncs amathlib w1).
Proof.
  intros Hst Ht Hh Htr. rewrite (luaL_setfuncs_amathlib w1 (stack w) r t Hst Ht).
  exists r, (<["to_mathml" := LCFunction Fn_lua_amath_to_mathml]> t).
  cbn [stack tables heap trace set_tables]. rewrite !lookup_insert_eq. done.
Qed.

Lemma lua51_register_via_globals (w : world) :
  (∀ r, globals w !! "amath" = Some (LTable r) → is_Some (tables w !! r)) →
  registered w
    ((conflict <- luaL_findtable_globals "amath" ;;
      match conflict with
      | Some _ => luaL_error "name conflict for module '%s'" [Some "amath"]
      | None =>
        (fun w1 =>
           match last (stack w1) with
           | Some t => Ok tt (set_loaded (<["amath" := t]> (loaded w1)) w1)
           | None => Fault
           end) ;;;
        luaL_setfuncs amathlib
      end) w).
Proof.
  intros Hwf. unfold bind at 1. unfold luaL_findtable_globals.
  destruct (globals w !! "amath") as [v|] eqn:Hg.
  - destruct v; try (split; reflexivity).
    + unfold bind. cbn -[fresh luaL_setfuncs]. rewrite last_snoc.
      eapply setfuncs_registered; cbn -[fresh]; [reflexivity| apply lookup_insert_eq |done|done].
    + destruct (Hwf r eq_refl) as [t Ht].
      unfold bind. cbn -[fresh luaL_setfuncs]. rewrite last_snoc.
      eapply setfuncs_registered; cbn -[fresh]; [reflexivity| exact Ht |done|done].
  - unfold bind. cbn -[fresh luaL_setfuncs]. rewrite last_snoc.
    eapply setfuncs_registered; cbn -[fresh]; [reflexivity| apply lookup_insert_eq |done|done].
Qed.

Lemma lua51_luaL_register_amath (w : world) :
  module_slot_ok "amath" w →
  registered w (lua51_luaL_register "amath" amathlib w).
Proof.
  intros [Hl Hg]. unfold lua51_luaL_register.
  destruct (loaded w !! "amath") as [v|] eqn:Hlo;
    [destruct v|]; try (by apply lua51_register_via_globals).
  destruct (Hl r eq_refl) as [t Ht].
  unfold bind, lua_push. eapply setfuncs_registered; cbn; [reflexivity|exact Ht|done|done].
Qed.

Lemma world_with_global_amath_ok : @module_slot_ok demo51 "amath" world_with_global_amath.
Proof.
  split; intros r; unfold world_with_global_amath; cbn [loaded globals tables].
  - by rewrite lookup_empty.
  - rewrite lookup_singleton_eq. intros [= <-]. by rewrite lookup_singleton_eq.
Qed.

End any_version.

(** X10: against any version of Lua, in a state where the tables named
    [amath] by the registry and the globals exist, [luaopen_amath] is never
    undefined; when it returns, it returns one value, a table in which
    [to_mathml] is the conversion function, and it has neither called the
    converter nor touched the C heap; it raises only against Lua 5.1, the
    library's name conflict, with the state unchanged. *)
Theorem luaopen_amath_any_version `{Platform} (w : world) :
  module_slot_ok "amath" w →
  match luaopen_amath w with
  | Ok n w' =>
    n = 1 ∧
    ∃ r t,
      stack w' = stack w ++ [LTable r] ∧
      tables w' !! r = Some t ∧
      t !! "to_mathml" = Some (LCFunction Fn_lua_amath_to_mathml) ∧
      heap w' = heap w ∧ trace w' = trace w
  | Raise e w' =>
    LUA_VERSION_NUM ≤ 501 ∧
    e = ErrorMsg (position w +:+ "name conflict for module 'amath'") ∧ w' = w
  | Fault => False
  end.
Proof.
  intros Hok. destruct (Z.ltb_spec 501 LUA_VERSION_NUM) as [Hver|Hver].
  - rewrite luaopen_amath_run by done. split; [done|].
    eexists _, _. cbn -[fresh]. split; [reflexivity|].
    split; [apply lookup_insert_eq|]. split; [apply lookup_singleton_eq|done].
  - pose proof (lua51_luaL_register_amath w Hok) as Hreg.
    unfold luaopen_amath, luaL_register.
    replace (501 <? LUA_VERSION_NUM) with false by (symmetry; apply Z.ltb_ge; lia).
    unfold bind at 1.
    destruct (lua51_luaL_register "amath" amathlib w) as [[] w'|e w'|]; cbn in Hreg |- *.
    + split; [done|exact Hreg].
    + split; [lia|exact Hreg].
    + exact Hreg.
Qed.

Lemma luaopen_amath_any_version_witness :
  match @luaopen_amath demo51 world_with_global_amath with
  | Ok n w' =>
    n = 1 ∧
    ∃ r t,
      stack w' = stack world_with_global_amath ++ [LTable r] ∧
      tables w' !! r = Some t ∧
      t !! "to_mathml" = Some (LCFunction Fn_lua_amath_to_mathml) ∧
      heap w' = heap world_with_global_amath ∧ trace w' = trace world_with_global_amath
  | Raise e w' =>
    @LUA_VERSION_NUM demo51 ≤ 501 ∧
    e = ErrorMsg (position world_with_global_amath +:+ "name conflict for module 'amath'") ∧
    w' = world_with_global_amath
  | Fault => False
  end.
Proof.
  exact (@luaopen_amath_any_version demo51 world_with_global_amath
           world_with_global_amath_ok).
Defined.
